(** * Ride-sharing economics engine (temp.py): a shallow embedding

    The engine of [temp.py] is the class [RideShareEconomics]: a revenue
    helper, a 36-month projection helper and one calculator per business
    model.  Every definition below follows one source function, statement
    by statement, and keeps the source's names.

    Numbers.  The source computes with Python [float]s and [int]s.  Money
    and rates are embedded as rationals [Q], read exactly (binary64
    rounding is outside this development; the literals [0.03], [0.93] and
    [0.07] are the fractions 3/100, 93/100 and 7/100); counts are [Z].
    Equality of amounts is [Qeq], written [==].  The one non-finite float
    of the source, [float('inf')], has its own constructor.

    Errors.  [/] raises [ZeroDivisionError] on a zero divisor and
    [l[-1]] raises [IndexError] on an empty list; both are results of
    the error monad [result]. *)

From Stdlib Require Import QArith Qround ZArith List String Bool Lia Lqa Floats.
Import ListNotations.
Open Scope Q_scope.

(** ** Python values and exceptions *)

Inductive exception : Type :=
| ZeroDivisionError
| IndexError.

Inductive result (A : Type) : Type :=
| Ok (a : A)
| Raise (e : exception).

Arguments Ok {A} a.
Arguments Raise {A} e.

Definition bind {A B : Type} (c : result A) (k : A -> result B) : result B :=
  match c with
  | Ok a => k a
  | Raise e => Raise e
  end.

Notation "x <- c ;; k" := (bind c (fun x => k))
  (at level 61, c at next level, right associativity).

(** A float of the source that may be [float('inf')]. *)
Inductive pyfloat : Type :=
| Finite (q : Q)
| Infinity.

(** [a < b] and [a <= b] as the booleans Python's comparisons return. *)
Definition Qlt_bool (a b : Q) : bool := negb (Qle_bool b a).

(** [a / b]: true division, [ZeroDivisionError] when [b] is zero. *)
Definition pydiv (a b : Q) : result Q :=
  if Qeq_bool b 0 then Raise ZeroDivisionError else Ok (a / b).

(** [max(a, b)] of two numbers: the first argument unless the second is
    strictly greater. *)
Definition pymax (a b : Q) : Q := if Qlt_bool a b then b else a.

(** [l[-1]]. *)
Fixpoint py_last (l : list Q) : result Q :=
  match l with
  | [] => Raise IndexError
  | [x] => Ok x
  | _ :: rest => py_last rest
  end.

(** [int(np.ceil(x))]. *)
Definition int_ceil (x : Q) : Z := Qceiling x.

(** ** The parameter bundle: the dict [params] of lines 304-321 *)

Record Params : Type := mkParams {
  avg_ticket_size : Q;
  rides_per_day : Q;
  working_days : Z;
  utilization_rate : Q;
  driver_salary : Q;
  num_agg_drivers : Z;
  agg_driver_acquisition_cost : Q;
  agg_ops_salary : Q;
  driver_churn_rate : Q;
  num_fleet_drivers : Z;
  fleet_driver_acquisition_cost : Q;
  ev_cost : Q;
  ev_maintenance : Q;
  ev_fuel_cost : Q;
  tax_rate : Q;
  fixed_costs : Q
}.

(** ** Output records *)

(** The dict returned by [calculate_monthly_projections]; its keys are
    fixed, so it is a record with one field per key. *)
Module Projections.
Record t : Type := mk {
  month : list Z;
  total_turnover : list Q;
  net_revenue : list Q;
  total_costs : list Q;
  gross_profit : list Q;
  profit_per_driver : list Q;
  cumulative_profit : list Q
}.
End Projections.

(** The dataclass [BusinessMetrics].  [cost_breakdown] is a dict read in
    insertion order, so it is an association list.  [break_even_month]
    and [ev_payback_months] can hold [None]. *)
Record BusinessMetrics : Type := mkBusinessMetrics {
  total_turnover : Q;
  net_revenue : Q;
  total_costs : Q;
  gross_profit : Q;
  profit_per_driver : Q;
  break_even_rides : pyfloat;
  initial_investment : Q;
  ev_payback_months : option Z;
  cost_breakdown : list (string * Q);
  monthly_projections : Projections.t;
  break_even_month : option Z;
  roi_percentage : Q;
  total_3yr_profit : Q
}.

(** ** RideShareEconomics *)

(** [self.revenue_share], lines 52-56. *)
Inductive share_key : Type := aggregator | fleet | app.

Definition revenue_share (k : share_key) : Q :=
  match k with
  | aggregator => 3 # 100
  | fleet => 93 # 100
  | app => 7 # 100
  end.

(** Lines 58-62. *)
Definition calculate_base_revenue (avg_ticket_size rides_per_day : Q)
    (working_days : Z) (utilization_rate : Q) (num_drivers : Z) : result Q :=
  monthly_rides <- pydiv (rides_per_day * inject_Z working_days * utilization_rate) 100 ;;
  Ok (avg_ticket_size * monthly_rides * inject_Z num_drivers).

(** The loop of lines 79-82: [cumulative += monthly_profit], then append,
    once per remaining month. *)
Fixpoint accumulate (months : nat) (monthly_profit cumulative : Q) : list Q :=
  match months with
  | O => []
  | S k =>
      let cumulative := cumulative + monthly_profit in
      cumulative :: accumulate k monthly_profit cumulative
  end.

(** Lines 64-84.  [months] is a Python int: [range] and [[x] * months]
    are empty when it is negative, as [Z.to_nat] is 0. *)
Definition calculate_monthly_projections (monthly_profit monthly_costs
    monthly_revenue monthly_turnover : Q) (num_drivers : Z)
    (initial_investment : Q) (months : Z) : result Projections.t :=
  let n := Z.to_nat months in
  per_driver <- pydiv monthly_profit (inject_Z (Z.max num_drivers 1)) ;;
  Ok (Projections.mk
        (map Z.of_nat (seq 1 n))
        (repeat monthly_turnover n)
        (repeat monthly_revenue n)
        (repeat monthly_costs n)
        (repeat monthly_profit n)
        (repeat per_driver n)
        (accumulate n monthly_profit (- initial_investment))).

(** The defaults of the signature: [initial_investment=0], [months=36]. *)
Definition default_months : Z := 36.

(** Lines 86-161. *)
Definition calculate_aggregator_model (params : Params) : result BusinessMetrics :=
  base_revenue <- calculate_base_revenue
    (avg_ticket_size params) (rides_per_day params)
    (working_days params) (utilization_rate params)
    (num_agg_drivers params) ;;
  let net_revenue := base_revenue * revenue_share aggregator in
  monthly_acquisition_cost <-
    (if Qlt_bool 0 (driver_churn_rate params) then
       expected_tenure_months <- pydiv 100 (driver_churn_rate params) ;;
       pydiv (agg_driver_acquisition_cost params * inject_Z (num_agg_drivers params))
             expected_tenure_months
     else Ok 0) ;;
  let driver_salaries := 0 in
  let ops_salary := agg_ops_salary params in
  let fixed_costs := fixed_costs params in
  let profit_before_tax :=
    net_revenue - (monthly_acquisition_cost + driver_salaries + ops_salary + fixed_costs) in
  taxable <- pydiv (profit_before_tax * tax_rate params) 100 ;;
  let tax_amount := pymax 0 taxable in
  let total_costs :=
    monthly_acquisition_cost + driver_salaries + ops_salary + fixed_costs + tax_amount in
  let cost_breakdown :=
    [ ("Driver Salaries"%string, driver_salaries);
      ("Driver Acquisition (Monthly)"%string, monthly_acquisition_cost);
      ("Ops Team Salary"%string, ops_salary);
      ("Fixed Costs"%string, fixed_costs);
      ("Taxes"%string, tax_amount) ] in
  let gross_profit := net_revenue - total_costs in
  profit_per_driver <- pydiv gross_profit (inject_Z (Z.max (num_agg_drivers params) 1)) ;;
  break_even <-
    (if Qle_bool gross_profit 0 then Ok (Infinity, None)
     else
       let contribution_per_ride := avg_ticket_size params * revenue_share aggregator in
       break_even_rides <- pydiv total_costs contribution_per_ride ;;
       Ok (Finite break_even_rides, Some 1%Z)) ;;
  let break_even_rides := fst break_even in
  let break_even_month := snd break_even in
  monthly_projections <- calculate_monthly_projections
    gross_profit total_costs net_revenue base_revenue (num_agg_drivers params)
    0 default_months ;;
  let total_3yr_profit := gross_profit * 36 in
  per_unit <- pydiv total_3yr_profit 1 ;;
  let roi_percentage := per_unit * 100 in
  Ok {| total_turnover := base_revenue;
        net_revenue := net_revenue;
        total_costs := total_costs;
        gross_profit := gross_profit;
        profit_per_driver := profit_per_driver;
        break_even_rides := break_even_rides;
        break_even_month := break_even_month;
        initial_investment := 0;
        roi_percentage := roi_percentage;
        total_3yr_profit := total_3yr_profit;
        ev_payback_months := Some 0%Z;
        cost_breakdown := cost_breakdown;
        monthly_projections := monthly_projections |}.

(** The loop of lines 237-241 over [enumerate(cumulative_profits)],
    started at index [i]: the first [i + 1] whose profit is [>= 0]. *)
Fixpoint first_month_from (i : Z) (cumulative_profits : list Q) : option Z :=
  match cumulative_profits with
  | [] => None
  | profit :: rest =>
      if Qle_bool 0 profit then Some (i + 1)%Z
      else first_month_from (i + 1)%Z rest
  end.

(** Lines 218-221: the estimate that the scan of lines 235-241 replaces. *)
Definition break_even_month_estimate (initial_ev_investment monthly_contribution : Q)
    : result (option Z) :=
  if Qle_bool monthly_contribution 0 then Ok None
  else
    ratio <- pydiv initial_ev_investment monthly_contribution ;;
    Ok (Some (int_ceil ratio + 1)%Z).

(** Lines 163-261. *)
Definition calculate_fleet_model (params : Params) : result BusinessMetrics :=
  base_revenue <- calculate_base_revenue
    (avg_ticket_size params) (rides_per_day params)
    (working_days params) (utilization_rate params)
    (num_fleet_drivers params) ;;
  let net_revenue := base_revenue * revenue_share fleet in
  monthly_acquisition_cost <-
    (if Qlt_bool 0 (driver_churn_rate params) then
       expected_tenure_months <- pydiv 100 (driver_churn_rate params) ;;
       pydiv (fleet_driver_acquisition_cost params * inject_Z (num_fleet_drivers params))
             expected_tenure_months
     else Ok 0) ;;
  let driver_salaries := driver_salary params * inject_Z (num_fleet_drivers params) in
  let initial_ev_investment := ev_cost params * inject_Z (num_fleet_drivers params) in
  let maintenance_costs := ev_maintenance params * inject_Z (num_fleet_drivers params) in
  utilization <- pydiv (utilization_rate params) 100 ;;
  let fuel_costs := ev_fuel_cost params * inject_Z (num_fleet_drivers params) * utilization in
  let fixed_costs := fixed_costs params in
  let profit_before_tax :=
    net_revenue - (monthly_acquisition_cost + driver_salaries +
                   maintenance_costs + fuel_costs + fixed_costs) in
  taxable <- pydiv (profit_before_tax * tax_rate params) 100 ;;
  let tax_amount := pymax 0 taxable in
  let total_monthly_costs :=
    monthly_acquisition_cost + driver_salaries +
    maintenance_costs + fuel_costs + fixed_costs + tax_amount in
  let cost_breakdown :=
    [ ("Driver Salaries"%string, driver_salaries);
      ("Driver Acquisition (Monthly)"%string, monthly_acquisition_cost);
      ("EV Investment (One-time)"%string, initial_ev_investment);
      ("Maintenance"%string, maintenance_costs);
      ("Fuel/Mileage"%string, fuel_costs);
      ("Fixed Costs"%string, fixed_costs);
      ("Taxes"%string, tax_amount) ] in
  let gross_profit := net_revenue - total_monthly_costs in
  profit_per_driver <- pydiv gross_profit (inject_Z (Z.max (num_fleet_drivers params) 1)) ;;
  let contribution_per_ride := avg_ticket_size params * revenue_share fleet in
  let monthly_contribution := gross_profit in
  break_even_month <- break_even_month_estimate initial_ev_investment monthly_contribution ;;
  break_even_rides <-
    (if Qle_bool gross_profit 0 then Ok Infinity
     else
       rides <- pydiv total_monthly_costs contribution_per_ride ;;
       Ok (Finite rides)) ;;
  monthly_projections <- calculate_monthly_projections
    gross_profit total_monthly_costs net_revenue base_revenue
    (num_fleet_drivers params) initial_ev_investment default_months ;;
  let cumulative_profits := Projections.cumulative_profit monthly_projections in
  let break_even_month_actual := first_month_from 0 cumulative_profits in
  total_3yr_profit <- py_last cumulative_profits ;;
  roi_percentage <-
    (if Qlt_bool 0 initial_ev_investment then
       ratio <- pydiv total_3yr_profit initial_ev_investment ;;
       Ok (ratio * 100)
     else Ok 0) ;;
  Ok {| total_turnover := base_revenue;
        net_revenue := net_revenue;
        total_costs := total_monthly_costs;
        gross_profit := gross_profit;
        profit_per_driver := profit_per_driver;
        break_even_rides := break_even_rides;
        break_even_month := break_even_month_actual;
        initial_investment := initial_ev_investment;
        roi_percentage := roi_percentage;
        total_3yr_profit := total_3yr_profit;
        ev_payback_months := break_even_month_actual;
        cost_breakdown := cost_breakdown;
        monthly_projections := monthly_projections |}.

(** ** Valid bundles

    The engine validates nothing.  A valid bundle has every parameter in
    the range of the data model: positive ticket size, rides and working
    days, percentages between 0 and 100, everything else non-negative.
    The sidebar widgets of lines 271-301 stay inside these ranges. *)

Record valid_bundle (p : Params) : Prop := mkValid {
  valid_avg_ticket_size : 0 < avg_ticket_size p;
  valid_rides_per_day : 0 < rides_per_day p;
  valid_working_days : (0 < working_days p)%Z;
  valid_utilization_rate : 0 <= utilization_rate p <= 100;
  valid_driver_salary : 0 <= driver_salary p;
  valid_num_agg_drivers : (0 <= num_agg_drivers p)%Z;
  valid_agg_driver_acquisition_cost : 0 <= agg_driver_acquisition_cost p;
  valid_agg_ops_salary : 0 <= agg_ops_salary p;
  valid_driver_churn_rate : 0 <= driver_churn_rate p <= 100;
  valid_num_fleet_drivers : (0 <= num_fleet_drivers p)%Z;
  valid_fleet_driver_acquisition_cost : 0 <= fleet_driver_acquisition_cost p;
  valid_ev_cost : 0 <= ev_cost p;
  valid_ev_maintenance : 0 <= ev_maintenance p;
  valid_ev_fuel_cost : 0 <= ev_fuel_cost p;
  valid_tax_rate : 0 <= tax_rate p <= 100;
  valid_fixed_costs : 0 <= fixed_costs p
}.

(** What the sidebar can produce: [min_value] and [max_value] of the
    widgets of lines 271-301. *)
Record sidebar_bundle (p : Params) : Prop := mkSidebar {
  sidebar_avg_ticket_size : 1 <= avg_ticket_size p;
  sidebar_rides_per_day : 1 <= rides_per_day p;
  sidebar_working_days : (1 <= working_days p)%Z;
  sidebar_utilization_rate : 10 <= utilization_rate p <= 100;
  sidebar_driver_salary : 0 <= driver_salary p;
  sidebar_num_agg_drivers : (0 <= num_agg_drivers p)%Z;
  sidebar_agg_driver_acquisition_cost : 0 <= agg_driver_acquisition_cost p;
  sidebar_num_fleet_drivers : (0 <= num_fleet_drivers p)%Z;
  sidebar_fleet_driver_acquisition_cost : 0 <= fleet_driver_acquisition_cost p;
  sidebar_ev_cost : 0 <= ev_cost p;
  sidebar_ev_maintenance : 0 <= ev_maintenance p;
  sidebar_ev_fuel_cost : 0 <= ev_fuel_cost p;
  sidebar_driver_churn_rate : 0 <= driver_churn_rate p <= 50;
  sidebar_tax_rate : 0 <= tax_rate p <= 40;
  sidebar_fixed_costs : 0 <= fixed_costs p;
  sidebar_agg_ops_salary : 0 <= agg_ops_salary p
}.

Definition in_range (lo x hi : Q) : bool := Qle_bool lo x && Qle_bool x hi.

Definition valid_bundleb (p : Params) : bool :=
  Qlt_bool 0 (avg_ticket_size p) &&
  Qlt_bool 0 (rides_per_day p) &&
  (0 <? working_days p)%Z &&
  in_range 0 (utilization_rate p) 100 &&
  Qle_bool 0 (driver_salary p) &&
  (0 <=? num_agg_drivers p)%Z &&
  Qle_bool 0 (agg_driver_acquisition_cost p) &&
  Qle_bool 0 (agg_ops_salary p) &&
  in_range 0 (driver_churn_rate p) 100 &&
  (0 <=? num_fleet_drivers p)%Z &&
  Qle_bool 0 (fleet_driver_acquisition_cost p) &&
  Qle_bool 0 (ev_cost p) &&
  Qle_bool 0 (ev_maintenance p) &&
  Qle_bool 0 (ev_fuel_cost p) &&
  in_range 0 (tax_rate p) 100 &&
  Qle_bool 0 (fixed_costs p).

(** The values the sidebar starts with (the [value=] of each widget). *)
Definition default_params : Params := {|
  avg_ticket_size := 80;
  rides_per_day := 20;
  working_days := 26;
  utilization_rate := 100;
  driver_salary := 25000;
  num_agg_drivers := 100;
  agg_driver_acquisition_cost := 2000;
  agg_ops_salary := 75000;
  driver_churn_rate := 10;
  num_fleet_drivers := 10;
  fleet_driver_acquisition_cost := 5000;
  ev_cost := 180000;
  ev_maintenance := 1500;
  ev_fuel_cost := 4000;
  tax_rate := 0;
  fixed_costs := 50000
|}.

(** A bundle on which both models earn and pay tax: 1000 aggregator
    drivers, a 15000 salary, a 30% tax rate. *)
Definition taxed_params : Params := {|
  avg_ticket_size := 80;
  rides_per_day := 20;
  working_days := 26;
  utilization_rate := 100;
  driver_salary := 15000;
  num_agg_drivers := 1000;
  agg_driver_acquisition_cost := 2000;
  agg_ops_salary := 75000;
  driver_churn_rate := 10;
  num_fleet_drivers := 10;
  fleet_driver_acquisition_cost := 5000;
  ev_cost := 180000;
  ev_maintenance := 1500;
  ev_fuel_cost := 4000;
  tax_rate := 30;
  fixed_costs := 50000
|}.


(** [taxed_params] with the driver salary lowered to 10000: the same
    fleet investment, a larger fleet profit. *)
Definition lower_salary_params : Params := {|
  avg_ticket_size := 80;
  rides_per_day := 20;
  working_days := 26;
  utilization_rate := 100;
  driver_salary := 10000;
  num_agg_drivers := 1000;
  agg_driver_acquisition_cost := 2000;
  agg_ops_salary := 75000;
  driver_churn_rate := 10;
  num_fleet_drivers := 10;
  fleet_driver_acquisition_cost := 5000;
  ev_cost := 180000;
  ev_maintenance := 1500;
  ev_fuel_cost := 4000;
  tax_rate := 30;
  fixed_costs := 50000
|}.

(** A bundle outside the valid range: a ticket size of 0 and a negative
    fixed cost. *)
Definition free_ride_params : Params := {|
  avg_ticket_size := 0;
  rides_per_day := 20;
  working_days := 26;
  utilization_rate := 100;
  driver_salary := 0;
  num_agg_drivers := 100;
  agg_driver_acquisition_cost := 0;
  agg_ops_salary := 0;
  driver_churn_rate := 10;
  num_fleet_drivers := 10;
  fleet_driver_acquisition_cost := 0;
  ev_cost := 0;
  ev_maintenance := 0;
  ev_fuel_cost := 0;
  tax_rate := 0;
  fixed_costs := - 1
|}.

(** Sum of the values of a cost breakdown, and lookup of one label. *)
Definition sum_values (d : list (string * Q)) : Q :=
  fold_right (fun kv acc => snd kv + acc) 0 d.

Fixpoint lookup (k : string) (d : list (string * Q)) : option Q :=
  match d with
  | [] => None
  | (k', v) :: rest => if String.eqb k k' then Some v else lookup k rest
  end.

(** Entry of the 1-based month [k] in a monthly sequence. *)
Definition month_entry (l : list Q) (k : Z) : Q := nth (Z.to_nat (k - 1)) l 0.

(** [k] is the first 1-based month whose entry is [>= 0]. *)
Definition first_nonneg_month (l : list Q) (k : Z) : Prop :=
  (1 <= k <= Z.of_nat (List.length l))%Z /\
  0 <= month_entry l k /\
  (forall j, (1 <= j < k)%Z -> month_entry l j < 0).

(** Sum of a list of amounts. *)
Definition Qsum (l : list Q) : Q := fold_right Qplus 0 l.

(** ** Reading a result *)

(** The tax line of a cost breakdown and the monthly lines before tax:
    every label but ["Taxes"] and the one-time EV purchase. *)
Definition tax_label : string := "Taxes".
Definition acquisition_label : string := "Driver Acquisition (Monthly)".




(** ** What a returned run of each calculator looks like *)

(** The local variables of [calculate_aggregator_model] that survive in
    its result: [acq] is [monthly_acquisition_cost], [tax] is
    [tax_amount]. *)
Record aggregator_run (p : Params) (m : BusinessMetrics) (acq tax : Q) : Prop := {
  agg_net_revenue :
    net_revenue m = total_turnover m * revenue_share aggregator;
  agg_acquisition :
    (if Qlt_bool 0 (driver_churn_rate p)
     then acq = agg_driver_acquisition_cost p * inject_Z (num_agg_drivers p)
                / (100 / driver_churn_rate p)
     else acq = 0);
  agg_tax :
    tax = pymax 0 ((net_revenue m - (acq + 0 + agg_ops_salary p + fixed_costs p))
                   * tax_rate p / 100);
  agg_total_costs :
    total_costs m = acq + 0 + agg_ops_salary p + fixed_costs p + tax;
  agg_cost_breakdown :
    cost_breakdown m =
      [ ("Driver Salaries"%string, 0);
        ("Driver Acquisition (Monthly)"%string, acq);
        ("Ops Team Salary"%string, agg_ops_salary p);
        ("Fixed Costs"%string, fixed_costs p);
        ("Taxes"%string, tax) ];
  agg_gross_profit :
    gross_profit m = net_revenue m - total_costs m;
  agg_break_even :
    (if Qle_bool (gross_profit m) 0
     then break_even_rides m = Infinity /\ break_even_month m = None
     else ~ avg_ticket_size p * revenue_share aggregator == 0 /\
          break_even_rides m =
            Finite (total_costs m / (avg_ticket_size p * revenue_share aggregator)) /\
          break_even_month m = Some 1%Z);
  agg_projections :
    calculate_monthly_projections (gross_profit m) (total_costs m) (net_revenue m)
      (total_turnover m) (num_agg_drivers p) 0 default_months =
    Ok (monthly_projections m);
  agg_initial_investment : initial_investment m = 0;
  agg_total_3yr_profit : total_3yr_profit m = gross_profit m * 36
}.

(** The same for [calculate_fleet_model]; [estimate] is the value of
    lines 218-221, which the result does not carry. *)
Record fleet_run (p : Params) (m : BusinessMetrics) (acq tax : Q)
    (estimate : option Z) : Prop := {
  fleet_net_revenue :
    net_revenue m = total_turnover m * revenue_share fleet;
  fleet_acquisition :
    (if Qlt_bool 0 (driver_churn_rate p)
     then acq = fleet_driver_acquisition_cost p * inject_Z (num_fleet_drivers p)
                / (100 / driver_churn_rate p)
     else acq = 0);
  fleet_tax :
    tax = pymax 0
            ((net_revenue m -
              (acq + driver_salary p * inject_Z (num_fleet_drivers p) +
               ev_maintenance p * inject_Z (num_fleet_drivers p) +
               ev_fuel_cost p * inject_Z (num_fleet_drivers p)
                 * (utilization_rate p / 100) +
               fixed_costs p))
             * tax_rate p / 100);
  fleet_total_costs :
    total_costs m =
      acq + driver_salary p * inject_Z (num_fleet_drivers p) +
      ev_maintenance p * inject_Z (num_fleet_drivers p) +
      ev_fuel_cost p * inject_Z (num_fleet_drivers p) * (utilization_rate p / 100) +
      fixed_costs p + tax;
  fleet_cost_breakdown :
    cost_breakdown m =
      [ ("Driver Salaries"%string, driver_salary p * inject_Z (num_fleet_drivers p));
        ("Driver Acquisition (Monthly)"%string, acq);
        ("EV Investment (One-time)"%string, initial_investment m);
        ("Maintenance"%string, ev_maintenance p * inject_Z (num_fleet_drivers p));
        ("Fuel/Mileage"%string,
         ev_fuel_cost p * inject_Z (num_fleet_drivers p) * (utilization_rate p / 100));
        ("Fixed Costs"%string, fixed_costs p);
        ("Taxes"%string, tax) ];
  fleet_gross_profit :
    gross_profit m = net_revenue m - total_costs m;
  fleet_initial_investment :
    initial_investment m = ev_cost p * inject_Z (num_fleet_drivers p);
  fleet_estimate :
    break_even_month_estimate (initial_investment m) (gross_profit m) = Ok estimate;
  fleet_break_even_rides :
    (if Qle_bool (gross_profit m) 0
     then break_even_rides m = Infinity
     else ~ avg_ticket_size p * revenue_share fleet == 0 /\
          break_even_rides m =
            Finite (total_costs m / (avg_ticket_size p * revenue_share fleet)));
  fleet_projections :
    calculate_monthly_projections (gross_profit m) (total_costs m) (net_revenue m)
      (total_turnover m) (num_fleet_drivers p) (initial_investment m) default_months =
    Ok (monthly_projections m);
  fleet_break_even_month :
    break_even_month m =
      first_month_from 0 (Projections.cumulative_profit (monthly_projections m));
  fleet_ev_payback_months : ev_payback_months m = break_even_month m;
  fleet_total_3yr_profit :
    py_last (Projections.cumulative_profit (monthly_projections m)) =
    Ok (total_3yr_profit m)
}.

(** ** The dashboard's reading of the metrics *)

(** Lines 25-29, [get_profit_color]: the test is [is not None], so a
    cumulative value of 0 counts as given. *)
Definition green : string := "#28a745".
Definition red : string := "#dc3545".

Definition get_profit_color (value : Q) (cumulative_value : option Q) : string :=
  match cumulative_value with
  | Some cumulative =>
      if Qle_bool 0 value && Qle_bool 0 cumulative then green else red
  | None => if Qle_bool 0 value then green else red
  end.

(** Lines 334 and 346: the colour of a model's card. *)
Definition profit_color (m : BusinessMetrics) : string :=
  if Qle_bool 0 (total_3yr_profit m) then green else red.








(** A valid bundle with no fleet and no overhead. *)
Definition idle_params : Params := {|
  avg_ticket_size := 80;
  rides_per_day := 20;
  working_days := 26;
  utilization_rate := 100;
  driver_salary := 25000;
  num_agg_drivers := 0;
  agg_driver_acquisition_cost := 2000;
  agg_ops_salary := 75000;
  driver_churn_rate := 10;
  num_fleet_drivers := 0;
  fleet_driver_acquisition_cost := 5000;
  ev_cost := 180000;
  ev_maintenance := 1500;
  ev_fuel_cost := 4000;
  tax_rate := 30;
  fixed_costs := 0
|}.

(** ** The engine in binary64

    The same functions with every amount a binary64 float, every
    operation rounded as Python rounds it and in the order the source
    writes it.  Runs of this module are what the interpreter prints. *)

Set Warnings "-inexact-float".

Module B64.
Local Open Scope float_scope.

(** The exceptions the engine can raise in binary64: a zero divisor, an
    empty list, an [int] too large for a [float] or [int()] of an
    infinity, and [int()] of a NaN. *)
Inductive exception : Type :=
| ZeroDivisionError
| IndexError
| OverflowError
| ValueError.

Inductive result (A : Type) : Type :=
| Ok (a : A)
| Raise (e : exception).
Arguments Ok {A} a.
Arguments Raise {A} e.

Definition bind {A B : Type} (c : result A) (k : A -> result B) : result B :=
  match c with
  | Ok a => k a
  | Raise e => Raise e
  end.

Declare Scope b64_scope.
Notation "x <- c ;; k" := (bind c (fun x => k))
  (at level 61, c at next level, right associativity) : b64_scope.
Local Open Scope b64_scope.

(** A Python number: the [int]s of the source (counts, the literal 0 of
    [initial_investment=0]) and its [float]s. *)
Inductive number : Type :=
| Int (n : Z)
| Float (x : float).

(** An [int] that meets a [float] is converted to the nearest binary64
    value; [OverflowError] when it is too large. *)
Definition float_of_int (n : Z) : result float :=
  let x := SF2Prim (binary_normalize prec emax n 0 false) in
  if is_infinity x then Raise OverflowError else Ok x.

(** [-a]: the negation of the int 0 is the int 0, that of the float 0.0
    is -0.0. *)
Definition neg (a : number) : number :=
  match a with
  | Int n => Int (- n)
  | Float x => Float (- x)
  end.

(** [a + x] for a float [x]. *)
Definition add_float (a : number) (x : float) : result float :=
  match a with
  | Int n => y <- float_of_int n ;; Ok (y + x)
  | Float y => Ok (y + x)
  end.

(** [x * n] and [x / n] for a float [x] and an int [n]. *)
Definition mul_int (x : float) (n : Z) : result float :=
  y <- float_of_int n ;; Ok (x * y).

Definition div_int (x : float) (n : Z) : result float :=
  y <- float_of_int n ;;
  if y =? 0 then Raise ZeroDivisionError else Ok (x / y).

(** [a / b] on floats: [ZeroDivisionError] when [b == 0] (0.0 or -0.0);
    an infinite or NaN quotient is returned, not raised. *)
Definition pydiv (a b : float) : result float :=
  if b =? 0 then Raise ZeroDivisionError else Ok (a / b).

(** [max(a, b)]: the first argument unless the second is strictly
    greater (so [max(0, nan)] is 0). *)
Definition pymax (a b : float) : float := if a <? b then b else a.

(** [int(np.ceil(x))]: [ValueError] on a NaN, [OverflowError] on an
    infinity, otherwise the least integer not below [x]. *)
Definition int_ceil (x : float) : result Z :=
  match Prim2SF x with
  | S754_nan => Raise ValueError
  | S754_infinity _ => Raise OverflowError
  | S754_zero _ => Ok 0%Z
  | S754_finite s m e =>
      let a := cond_Zopp s (Zpos m) in
      Ok (if (0 <=? e)%Z then a * 2 ^ e else - ((- a) / 2 ^ (- e)))%Z
  end.

(** [l[-1]]. *)
Fixpoint py_last (l : list float) : result float :=
  match l with
  | [] => Raise IndexError
  | [x] => Ok x
  | _ :: rest => py_last rest
  end.

(** The dict [params] of lines 304-321. *)
Record Params : Type := mkParams {
  avg_ticket_size : float;
  rides_per_day : float;
  working_days : Z;
  utilization_rate : float;
  driver_salary : float;
  num_agg_drivers : Z;
  agg_driver_acquisition_cost : float;
  agg_ops_salary : float;
  driver_churn_rate : float;
  num_fleet_drivers : Z;
  fleet_driver_acquisition_cost : float;
  ev_cost : float;
  ev_maintenance : float;
  ev_fuel_cost : float;
  tax_rate : float;
  fixed_costs : float
}.

(** The dict returned by [calculate_monthly_projections]. *)
Module Projections.
Record t : Type := mk {
  month : list Z;
  total_turnover : list float;
  net_revenue : list float;
  total_costs : list float;
  gross_profit : list float;
  profit_per_driver : list float;
  cumulative_profit : list float
}.
End Projections.

(** The dataclass [BusinessMetrics]; [break_even_rides] can be
    [float('inf')], here the binary64 infinity. *)
Record BusinessMetrics : Type := mkBusinessMetrics {
  total_turnover : float;
  net_revenue : float;
  total_costs : float;
  gross_profit : float;
  profit_per_driver : float;
  break_even_rides : float;
  initial_investment : number;
  ev_payback_months : option Z;
  cost_breakdown : list (string * float);
  monthly_projections : Projections.t;
  break_even_month : option Z;
  roi_percentage : float;
  total_3yr_profit : float
}.

(** [self.revenue_share], lines 52-56: the binary64 values nearest to
    0.03, 0.93 and 0.07. *)
Inductive share_key : Type := aggregator | fleet | app.

Definition revenue_share (k : share_key) : float :=
  match k with
  | aggregator => 0.03
  | fleet => 0.93
  | app => 0.07
  end.

(** Lines 58-62. *)
Definition calculate_base_revenue (avg_ticket_size rides_per_day : float)
    (working_days : Z) (utilization_rate : float) (num_drivers : Z) : result float :=
  rides <- mul_int rides_per_day working_days ;;
  monthly_rides <- pydiv (rides * utilization_rate) 100 ;;
  mul_int (avg_ticket_size * monthly_rides) num_drivers.

(** The loop of lines 79-82. *)
Fixpoint accumulate (months : nat) (monthly_profit : float) (cumulative : number)
    : result (list float) :=
  match months with
  | O => Ok []
  | S k =>
      cumulative <- add_float cumulative monthly_profit ;;
      rest <- accumulate k monthly_profit (Float cumulative) ;;
      Ok (cumulative :: rest)
  end.

(** Lines 64-84. *)
Definition calculate_monthly_projections (monthly_profit monthly_costs
    monthly_revenue monthly_turnover : float) (num_drivers : Z)
    (initial_investment : number) (months : Z) : result Projections.t :=
  let n := Z.to_nat months in
  per_driver <- div_int monthly_profit (Z.max num_drivers 1) ;;
  cumulative_profit <- accumulate n monthly_profit (neg initial_investment) ;;
  Ok (Projections.mk
        (map Z.of_nat (seq 1 n))
        (repeat monthly_turnover n)
        (repeat monthly_revenue n)
        (repeat monthly_costs n)
        (repeat monthly_profit n)
        (repeat per_driver n)
        cumulative_profit).

Definition default_months : Z := 36.

(** Lines 86-161. *)
Definition calculate_aggregator_model (params : Params) : result BusinessMetrics :=
  base_revenue <- calculate_base_revenue
    (avg_ticket_size params) (rides_per_day params)
    (working_days params) (utilization_rate params)
    (num_agg_drivers params) ;;
  let net_revenue := base_revenue * revenue_share aggregator in
  monthly_acquisition_cost <-
    (if 0 <? driver_churn_rate params then
       expected_tenure_months <- pydiv 100 (driver_churn_rate params) ;;
       cost <- mul_int (agg_driver_acquisition_cost params) (num_agg_drivers params) ;;
       pydiv cost expected_tenure_months
     else Ok 0) ;;
  let driver_salaries := 0 in
  let ops_salary := agg_ops_salary params in
  let fixed_costs := fixed_costs params in
  let profit_before_tax :=
    net_revenue - (monthly_acquisition_cost + driver_salaries + ops_salary + fixed_costs) in
  taxable <- pydiv (profit_before_tax * tax_rate params) 100 ;;
  let tax_amount := pymax 0 taxable in
  let total_costs :=
    monthly_acquisition_cost + driver_salaries + ops_salary + fixed_costs + tax_amount in
  let cost_breakdown :=
    [ ("Driver Salaries"%string, driver_salaries);
      ("Driver Acquisition (Monthly)"%string, monthly_acquisition_cost);
      ("Ops Team Salary"%string, ops_salary);
      ("Fixed Costs"%string, fixed_costs);
      ("Taxes"%string, tax_amount) ] in
  let gross_profit := net_revenue - total_costs in
  profit_per_driver <- div_int gross_profit (Z.max (num_agg_drivers params) 1) ;;
  break_even <-
    (if gross_profit <=? 0 then Ok (infinity, None)
     else
       let contribution_per_ride := avg_ticket_size params * revenue_share aggregator in
       break_even_rides <- pydiv total_costs contribution_per_ride ;;
       Ok (break_even_rides, Some 1%Z)) ;;
  let break_even_rides := fst break_even in
  let break_even_month := snd break_even in
  monthly_projections <- calculate_monthly_projections
    gross_profit total_costs net_revenue base_revenue (num_agg_drivers params)
    (Int 0) default_months ;;
  let total_3yr_profit := gross_profit * 36 in
  per_unit <- pydiv total_3yr_profit 1 ;;
  let roi_percentage := per_unit * 100 in
  Ok {| total_turnover := base_revenue;
        net_revenue := net_revenue;
        total_costs := total_costs;
        gross_profit := gross_profit;
        profit_per_driver := profit_per_driver;
        break_even_rides := break_even_rides;
        break_even_month := break_even_month;
        initial_investment := Int 0;
        roi_percentage := roi_percentage;
        total_3yr_profit := total_3yr_profit;
        ev_payback_months := Some 0%Z;
        cost_breakdown := cost_breakdown;
        monthly_projections := monthly_projections |}.

(** The loop of lines 237-241. *)
Fixpoint first_month_from (i : Z) (cumulative_profits : list float) : option Z :=
  match cumulative_profits with
  | [] => None
  | profit :: rest =>
      if 0 <=? profit then Some (i + 1)%Z
      else first_month_from (i + 1)%Z rest
  end.

(** Lines 218-221. *)
Definition break_even_month_estimate (initial_ev_investment monthly_contribution : float)
    : result (option Z) :=
  if monthly_contribution <=? 0 then Ok None
  else
    ratio <- pydiv initial_ev_investment monthly_contribution ;;
    months <- int_ceil ratio ;;
    Ok (Some (months + 1)%Z).

(** Lines 163-261. *)
Definition calculate_fleet_model (params : Params) : result BusinessMetrics :=
  base_revenue <- calculate_base_revenue
    (avg_ticket_size params) (rides_per_day params)
    (working_days params) (utilization_rate params)
    (num_fleet_drivers params) ;;
  let net_revenue := base_revenue * revenue_share fleet in
  monthly_acquisition_cost <-
    (if 0 <? driver_churn_rate params then
       expected_tenure_months <- pydiv 100 (driver_churn_rate params) ;;
       cost <- mul_int (fleet_driver_acquisition_cost params) (num_fleet_drivers params) ;;
       pydiv cost expected_tenure_months
     else Ok 0) ;;
  driver_salaries <- mul_int (driver_salary params) (num_fleet_drivers params) ;;
  initial_ev_investment <- mul_int (ev_cost params) (num_fleet_drivers params) ;;
  maintenance_costs <- mul_int (ev_maintenance params) (num_fleet_drivers params) ;;
  fuel <- mul_int (ev_fuel_cost params) (num_fleet_drivers params) ;;
  utilization <- pydiv (utilization_rate params) 100 ;;
  let fuel_costs := fuel * utilization in
  let fixed_costs := fixed_costs params in
  let profit_before_tax :=
    net_revenue - (monthly_acquisition_cost + driver_salaries +
                   maintenance_costs + fuel_costs + fixed_costs) in
  taxable <- pydiv (profit_before_tax * tax_rate params) 100 ;;
  let tax_amount := pymax 0 taxable in
  let total_monthly_costs :=
    monthly_acquisition_cost + driver_salaries +
    maintenance_costs + fuel_costs + fixed_costs + tax_amount in
  let cost_breakdown :=
    [ ("Driver Salaries"%string, driver_salaries);
      ("Driver Acquisition (Monthly)"%string, monthly_acquisition_cost);
      ("EV Investment (One-time)"%string, initial_ev_investment);
      ("Maintenance"%string, maintenance_costs);
      ("Fuel/Mileage"%string, fuel_costs);
      ("Fixed Costs"%string, fixed_costs);
      ("Taxes"%string, tax_amount) ] in
  let gross_profit := net_revenue - total_monthly_costs in
  profit_per_driver <- div_int gross_profit (Z.max (num_fleet_drivers params) 1) ;;
  let contribution_per_ride := avg_ticket_size params * revenue_share fleet in
  let monthly_contribution := gross_profit in
  break_even_month <- break_even_month_estimate initial_ev_investment monthly_contribution ;;
  break_even_rides <-
    (if gross_profit <=? 0 then Ok infinity
     else pydiv total_monthly_costs contribution_per_ride) ;;
  monthly_projections <- calculate_monthly_projections
    gross_profit total_monthly_costs net_revenue base_revenue
    (num_fleet_drivers params) (Float initial_ev_investment) default_months ;;
  let cumulative_profits := Projections.cumulative_profit monthly_projections in
  let break_even_month_actual := first_month_from 0 cumulative_profits in
  total_3yr_profit <- py_last cumulative_profits ;;
  roi_percentage <-
    (if 0 <? initial_ev_investment then
       ratio <- pydiv total_3yr_profit initial_ev_investment ;;
       Ok (ratio * 100)
     else Ok 0) ;;
  Ok {| total_turnover := base_revenue;
        net_revenue := net_revenue;
        total_costs := total_monthly_costs;
        gross_profit := gross_profit;
        profit_per_driver := profit_per_driver;
        break_even_rides := break_even_rides;
        break_even_month := break_even_month_actual;
        initial_investment := Float initial_ev_investment;
        roi_percentage := roi_percentage;
        total_3yr_profit := total_3yr_profit;
        ev_payback_months := break_even_month_actual;
        cost_breakdown := cost_breakdown;
        monthly_projections := monthly_projections |}.

(** Python's [sum] over floats, left to right from 0, and the sum of a
    dict's values in insertion order. *)
Definition fsum (l : list float) : float := fold_left add l 0.
Definition sum_values (d : list (string * float)) : float := fsum (map snd d).

(** Entry of the 1-based month [k], and [k] being the first month whose
    entry passes the test [profit >= 0] of line 239. *)
Definition month_entry (l : list float) (k : Z) : float := nth (Z.to_nat (k - 1)) l 0.

Definition first_nonneg_month (l : list float) (k : Z) : Prop :=
  (1 <= k <= Z.of_nat (List.length l))%Z /\
  (0 <=? month_entry l k) = true /\
  (forall j, (1 <= j < k)%Z -> (0 <=? month_entry l j) = false).



(** The ranges of a valid bundle, as the comparisons Python would make. *)
Definition in_range (lo x hi : float) : bool := (lo <=? x) && (x <=? hi).

Definition valid_bundleb (p : Params) : bool :=
  (0 <? avg_ticket_size p) &&
  (0 <? rides_per_day p) &&
  (0 <? working_days p)%Z &&
  in_range 0 (utilization_rate p) 100 &&
  (0 <=? driver_salary p) &&
  (0 <=? num_agg_drivers p)%Z &&
  (0 <=? agg_driver_acquisition_cost p) &&
  (0 <=? agg_ops_salary p) &&
  in_range 0 (driver_churn_rate p) 100 &&
  (0 <=? num_fleet_drivers p)%Z &&
  (0 <=? fleet_driver_acquisition_cost p) &&
  (0 <=? ev_cost p) &&
  (0 <=? ev_maintenance p) &&
  (0 <=? ev_fuel_cost p) &&
  in_range 0 (tax_rate p) 100 &&
  (0 <=? fixed_costs p).

(** The values the sidebar starts with. *)
Definition default_params : Params := {|
  avg_ticket_size := 80;
  rides_per_day := 20;
  working_days := 26;
  utilization_rate := 100;
  driver_salary := 25000;
  num_agg_drivers := 100;
  agg_driver_acquisition_cost := 2000;
  agg_ops_salary := 75000;
  driver_churn_rate := 10;
  num_fleet_drivers := 10;
  fleet_driver_acquisition_cost := 5000;
  ev_cost := 180000;
  ev_maintenance := 1500;
  ev_fuel_cost := 4000;
  tax_rate := 0;
  fixed_costs := 50000
|}.



(** The default bundle with no churn, a 78903 vehicle and a 1% tax. *)
Definition ceiling_params : Params := {|
  avg_ticket_size := 80;
  rides_per_day := 20;
  working_days := 26;
  utilization_rate := 100;
  driver_salary := 25000;
  num_agg_drivers := 100;
  agg_driver_acquisition_cost := 2000;
  agg_ops_salary := 75000;
  driver_churn_rate := 0;
  num_fleet_drivers := 10;
  fleet_driver_acquisition_cost := 5000;
  ev_cost := 78903;
  ev_maintenance := 1500;
  ev_fuel_cost := 4000;
  tax_rate := 1;
  fixed_costs := 50000
|}.

(** The default bundle with a 36800 ops salary, a churn of 44 and no fixed
    costs: in exact arithmetic the aggregator's profit is 0. *)
Definition thin_margin_params : Params := {|
  avg_ticket_size := 80;
  rides_per_day := 20;
  working_days := 26;
  utilization_rate := 100;
  driver_salary := 25000;
  num_agg_drivers := 100;
  agg_driver_acquisition_cost := 2000;
  agg_ops_salary := 36800;
  driver_churn_rate := 44;
  num_fleet_drivers := 10;
  fleet_driver_acquisition_cost := 5000;
  ev_cost := 180000;
  ev_maintenance := 1500;
  ev_fuel_cost := 4000;
  tax_rate := 0;
  fixed_costs := 0
|}.

(** The default bundle with a vehicle at 1e308. *)
Definition huge_ev_params : Params := {|
  avg_ticket_size := 80;
  rides_per_day := 20;
  working_days := 26;
  utilization_rate := 100;
  driver_salary := 25000;
  num_agg_drivers := 100;
  agg_driver_acquisition_cost := 2000;
  agg_ops_salary := 75000;
  driver_churn_rate := 10;
  num_fleet_drivers := 10;
  fleet_driver_acquisition_cost := 5000;
  ev_cost := 1e308;
  ev_maintenance := 1500;
  ev_fuel_cost := 4000;
  tax_rate := 0;
  fixed_costs := 50000
|}.

(** The exceptions of float arithmetic, and those the fleet calculator
    adds with the [int()] of line 221. *)
Definition arithmetic_error (e : exception) : Prop :=
  e = ZeroDivisionError \/ e = OverflowError.

Definition fleet_error (e : exception) : Prop :=
  e = ZeroDivisionError \/ e = OverflowError \/ e = ValueError.

(** Outside the valid range: a ticket size of 0 and a negative fixed
    cost. *)
Definition free_ride_params : Params := {|
  avg_ticket_size := 0;
  rides_per_day := 20;
  working_days := 26;
  utilization_rate := 100;
  driver_salary := 0;
  num_agg_drivers := 100;
  agg_driver_acquisition_cost := 0;
  agg_ops_salary := 0;
  driver_churn_rate := 10;
  num_fleet_drivers := 10;
  fleet_driver_acquisition_cost := 0;
  ev_cost := 0;
  ev_maintenance := 0;
  ev_fuel_cost := 0;
  tax_rate := 0;
  fixed_costs := -1
|}.

(** The default bundle with a ticket and a vehicle at 1e308. *)
Definition huge_ticket_and_ev_params : Params := {|
  avg_ticket_size := 1e308;
  rides_per_day := 20;
  working_days := 26;
  utilization_rate := 100;
  driver_salary := 25000;
  num_agg_drivers := 100;
  agg_driver_acquisition_cost := 2000;
  agg_ops_salary := 75000;
  driver_churn_rate := 10;
  num_fleet_drivers := 10;
  fleet_driver_acquisition_cost := 5000;
  ev_cost := 1e308;
  ev_maintenance := 1500;
  ev_fuel_cost := 4000;
  tax_rate := 0;
  fixed_costs := 50000
|}.

End B64.

(** ** Comparisons and division *)

Lemma Qlt_bool_iff (a b : Q) : Qlt_bool a b = true <-> a < b.
Proof.
  unfold Qlt_bool. rewrite negb_true_iff.
  destruct (Qle_bool b a) eqn:E.
  - apply Qle_bool_iff in E. split; [discriminate | intro; lra].
  - split; [intros _ | reflexivity].
    destruct (Qlt_le_dec a b) as [H | H]; [exact H |].
    apply Qle_bool_iff in H. congruence.
Qed.


Lemma Qle_bool_false (a b : Q) : Qle_bool a b = false <-> b < a.
Proof.
  rewrite <- Qlt_bool_iff. unfold Qlt_bool.
  destruct (Qle_bool a b); simpl; split; congruence.
Qed.

Lemma pydiv_ok (a b : Q) : ~ b == 0 -> pydiv a b = Ok (a / b).
Proof.
  intro H. unfold pydiv.
  destruct (Qeq_bool b 0) eqn:E; [| reflexivity].
  apply Qeq_bool_iff in E. contradiction.
Qed.

Lemma pydiv_zero (a b : Q) : b == 0 -> pydiv a b = Raise ZeroDivisionError.
Proof.
  intro H. unfold pydiv. apply Qeq_bool_iff in H. rewrite H. reflexivity.
Qed.



Lemma inject_Z_max_nonzero (n : Z) : ~ inject_Z (Z.max n 1) == 0.
Proof.
  intro H. assert (E : inject_Z (Z.max n 1) == inject_Z 0) by exact H.
  rewrite inject_Z_injective in E. lia.
Qed.

Lemma tenure_nonzero (c : Q) : 0 < c -> ~ 100 / c == 0.
Proof.
  intros Hc H.
  assert (E : 100 / c * c == 100) by (field; lra).
  rewrite H in E. lra.
Qed.

Lemma share_nonzero (a : Q) (k : share_key) : 0 < a -> ~ a * revenue_share k == 0.
Proof.
  intros Ha H.
  assert (Hk : 0 < revenue_share k) by (destruct k; reflexivity).
  assert (0 < a * revenue_share k) by (apply Qmult_lt_0_compat; assumption).
  lra.
Qed.

Lemma pos_nonzero (c : Q) : 0 < c -> ~ c == 0.
Proof. intros Hc H. lra. Qed.

Lemma constant_nonzero_100 : ~ 100 == 0.
Proof. discriminate. Qed.

Lemma constant_nonzero_1 : ~ 1 == 0.
Proof. discriminate. Qed.

Create HintDb divisor.
#[local] Hint Resolve constant_nonzero_100 constant_nonzero_1
  inject_Z_max_nonzero tenure_nonzero share_nonzero pos_nonzero : divisor.

(** Run the next division of the goal whose divisor is known not to be 0. *)
Ltac run_div :=
  match goal with
  | |- context [pydiv ?a ?b] =>
      rewrite (pydiv_ok a b) by auto with divisor; cbn [bind]
  end.

Lemma valid_bundleb_spec (p : Params) : valid_bundleb p = true <-> valid_bundle p.
Proof.
  unfold valid_bundleb, in_range.
  repeat rewrite andb_true_iff.
  repeat rewrite Qlt_bool_iff. repeat rewrite Qle_bool_iff.
  rewrite Z.ltb_lt. repeat rewrite Z.leb_le.
  split.
  - intro H. constructor; tauto.
  - intros []. tauto.
Qed.

Lemma default_params_valid : valid_bundle default_params.
Proof. apply valid_bundleb_spec. reflexivity. Qed.

(** ** Running the error monad *)

Lemma bind_Ok {A B : Type} (c : result A) (k : A -> result B) (b : B) :
  bind c k = Ok b -> exists a, c = Ok a /\ k a = Ok b.
Proof.
  destruct c as [a | e]; simpl; intro H; [| discriminate].
  exists a. split; [reflexivity | exact H].
Qed.

Lemma pydiv_Ok_inv (a b v : Q) : pydiv a b = Ok v -> ~ b == 0 /\ v = a / b.
Proof.
  unfold pydiv. destruct (Qeq_bool b 0) eqn:E; [discriminate |].
  intro H. injection H as <-. split; [| reflexivity].
  apply Qeq_bool_neq. exact E.
Qed.

Lemma Ok_inj {A : Type} (a b : A) : Ok a = Ok b -> a = b.
Proof. intro H. injection H as ->. reflexivity. Qed.

(** Peel the binds of a run that returned: every bound call returned
    too, and each division had a non-zero divisor. *)
Ltac peel H :=
  repeat (cbv beta zeta in H;
          match type of H with
          | bind (pydiv _ _) _ = Ok _ =>
              let v := fresh "v" in
              let Hv := fresh "Hdiv" in
              apply bind_Ok in H; destruct H as (v & Hv & H);
              apply pydiv_Ok_inv in Hv; destruct Hv as [Hv ->]
          | bind _ _ = Ok _ =>
              let v := fresh "v" in
              let Hv := fresh "Hrun" in
              apply bind_Ok in H; destruct H as (v & Hv & H)
          end).

(** ** The projection helper *)

Section Projection.
Variables monthly_profit monthly_costs monthly_revenue monthly_turnover : Q.
Variable num_drivers : Z.
Variable initial_investment : Q.
Variable months : Z.

Lemma calculate_monthly_projections_eq :
  calculate_monthly_projections monthly_profit monthly_costs monthly_revenue
    monthly_turnover num_drivers initial_investment months =
  Ok (Projections.mk
        (map Z.of_nat (seq 1 (Z.to_nat months)))
        (repeat monthly_turnover (Z.to_nat months))
        (repeat monthly_revenue (Z.to_nat months))
        (repeat monthly_costs (Z.to_nat months))
        (repeat monthly_profit (Z.to_nat months))
        (repeat (monthly_profit / inject_Z (Z.max num_drivers 1)) (Z.to_nat months))
        (accumulate (Z.to_nat months) monthly_profit (- initial_investment))).
Proof.
  unfold calculate_monthly_projections.
  rewrite pydiv_ok by apply inject_Z_max_nonzero. reflexivity.
Qed.
End Projection.

(** ** The cumulative-profit loop *)


Section Cumulative.
Variable monthly_profit : Q.

Lemma accumulate_length (n : nat) (c : Q) :
  List.length (accumulate n monthly_profit c) = n.
Proof.
  revert c. induction n as [| n IH]; intro c; simpl; [reflexivity |].
  rewrite IH. reflexivity.
Qed.

(** Entry [i + 1] of the loop's list is entry [i] plus the monthly
    profit, and the first entry is the seed plus the monthly profit. *)
Lemma accumulate_nth_succ (n : nat) (c : Q) (i : nat) :
  (S i < n)%nat ->
  nth (S i) (accumulate n monthly_profit c) 0 =
  nth i (accumulate n monthly_profit c) 0 + monthly_profit.
Proof.
  revert c i. induction n as [| n IH]; intros c i Hi; [lia |].
  destruct i as [| i].
  - destruct n as [| n]; [lia |]. reflexivity.
  - simpl. apply (IH (c + monthly_profit) i). lia.
Qed.

Lemma accumulate_nth_0 (n : nat) (c : Q) :
  (0 < n)%nat -> nth 0 (accumulate n monthly_profit c) 0 = c + monthly_profit.
Proof. destruct n; [lia | reflexivity]. Qed.

(** Closed form of the running sum. *)
Lemma accumulate_nth (n : nat) (c : Q) (i : nat) :
  (i < n)%nat ->
  nth i (accumulate n monthly_profit c) 0 ==
  c + inject_Z (Z.of_nat (S i)) * monthly_profit.
Proof.
  revert c i. induction n as [| n IH]; intros c i Hi; [lia |].
  destruct i as [| i].
  - simpl. change (inject_Z 1) with 1. ring.
  - change (nth (S i) (accumulate (S n) monthly_profit c) 0)
      with (nth i (accumulate n monthly_profit (c + monthly_profit)) 0).
    rewrite IH by lia.
    rewrite (Nat2Z.inj_succ (S i)). unfold Z.succ. rewrite inject_Z_plus.
    change (inject_Z 1) with 1. ring.
Qed.

(** Month [k] of the cumulative sequence holds the seed plus [k] monthly
    profits. *)
Lemma month_entry_accumulate (n : nat) (c : Q) (k : Z) :
  (1 <= k <= Z.of_nat n)%Z ->
  month_entry (accumulate n monthly_profit c) k == c + inject_Z k * monthly_profit.
Proof.
  intro Hk. unfold month_entry. rewrite accumulate_nth by lia.
  replace (Z.of_nat (S (Z.to_nat (k - 1)))) with k by lia. reflexivity.
Qed.

End Cumulative.

(** ** The two calculators: what a returned run satisfies, and that valid
    bundles do return *)

Lemma aggregator_inv (p : Params) (m : BusinessMetrics) :
  calculate_aggregator_model p = Ok m -> exists acq tax, aggregator_run p m acq tax.
Proof.
  unfold calculate_aggregator_model. intro H.
  peel H. apply Ok_inj in H. subst m.
  rename v into base_revenue, v0 into acq, v1 into break_even.
  exists acq, (pymax 0 ((base_revenue * revenue_share aggregator
                         - (acq + 0 + agg_ops_salary p + fixed_costs p))
                        * tax_rate p / 100)).
  constructor; cbn [net_revenue total_turnover total_costs gross_profit
                    cost_breakdown break_even_rides break_even_month
                    monthly_projections initial_investment total_3yr_profit];
    try reflexivity.
  - destruct (Qlt_bool 0 (driver_churn_rate p)).
    + peel Hrun0. apply pydiv_Ok_inv in Hrun0. apply Hrun0.
    + apply Ok_inj in Hrun0. symmetry. exact Hrun0.
  - destruct (Qle_bool _ 0).
    + apply Ok_inj in Hrun1. subst break_even. split; reflexivity.
    + peel Hrun1. apply Ok_inj in Hrun1. subst break_even.
      repeat split. exact Hdiv2.
  - exact Hrun2.
Qed.

(** On a valid bundle no division of the aggregator calculator has a zero
    divisor: the call returns. *)
Lemma aggregator_total (p : Params) :
  valid_bundle p -> exists m, calculate_aggregator_model p = Ok m.
Proof.
  intros [Hticket _ _ _ _ _ _ _ _ _ _ _ _ _ _ _].
  unfold calculate_aggregator_model, calculate_base_revenue.
  run_div.
  destruct (Qlt_bool 0 (driver_churn_rate p)) eqn:Hchurn;
    [apply Qlt_bool_iff in Hchurn |];
    cbn [bind]; repeat run_div; cbv zeta; repeat run_div;
    destruct (Qle_bool _ 0); cbn [bind fst snd]; repeat run_div;
    rewrite calculate_monthly_projections_eq; cbn [bind]; repeat run_div;
    eexists; reflexivity.
Qed.

Lemma fleet_inv (p : Params) (m : BusinessMetrics) :
  calculate_fleet_model p = Ok m ->
  exists acq tax estimate, fleet_run p m acq tax estimate.
Proof.
  unfold calculate_fleet_model. intro H.
  peel H. apply Ok_inj in H. subst m.
  rename v into base_revenue, v0 into acq, v1 into estimate.
  exists acq.
  eexists (pymax 0 _). exists estimate.
  constructor; cbn [net_revenue total_turnover total_costs gross_profit
                    cost_breakdown break_even_rides break_even_month
                    monthly_projections initial_investment total_3yr_profit
                    ev_payback_months];
    try reflexivity.
  - destruct (Qlt_bool 0 (driver_churn_rate p)).
    + peel Hrun0. apply pydiv_Ok_inv in Hrun0. apply Hrun0.
    + apply Ok_inj in Hrun0. symmetry. exact Hrun0.
  - exact Hrun1.
  - destruct (Qle_bool _ 0).
    + apply Ok_inj in Hrun2. symmetry. exact Hrun2.
    + peel Hrun2. apply Ok_inj in Hrun2. split; [exact Hdiv2 | symmetry; exact Hrun2].
  - exact Hrun3.
  - exact Hrun4.
Qed.



(** ** Cost breakdown and tax *)






(** ** The break-even scan *)

(** The scan of lines 237-241, started at index [i], returns the first
    1-based month whose entry is [>= 0]. *)
Lemma first_month_from_Some (l : list Q) (i k : Z) :
  first_month_from i l = Some k ->
  (i < k <= i + Z.of_nat (List.length l))%Z /\
  0 <= nth (Z.to_nat (k - i - 1)) l 0 /\
  (forall j, (i < j < k)%Z -> nth (Z.to_nat (j - i - 1)) l 0 < 0).
Proof.
  revert i. induction l as [| x l IH]; intros i H; [discriminate |].
  cbn [first_month_from] in H.
  destruct (Qle_bool 0 x) eqn:E.
  - apply Qle_bool_iff in E. injection H as <-.
    replace (i + 1 - i - 1)%Z with 0%Z by lia.
    cbn [List.length]. split; [lia |]. split; [exact E |]. intros j Hj. lia.
  - apply Qle_bool_false in E.
    destruct (IH (i + 1)%Z H) as (Hk & Hnth & Hbefore).
    cbn [List.length]. split; [lia |]. split.
    + replace (Z.to_nat (k - i - 1)) with (S (Z.to_nat (k - (i + 1) - 1))) by lia.
      exact Hnth.
    + intros j Hj. destruct (Z.eq_dec j (i + 1)) as [-> | Hne].
      * replace (i + 1 - i - 1)%Z with 0%Z by lia. exact E.
      * replace (Z.to_nat (j - i - 1)) with (S (Z.to_nat (j - (i + 1) - 1))) by lia.
        apply Hbefore. lia.
Qed.

Lemma first_month_from_None (l : list Q) (i : Z) :
  first_month_from i l = None -> forall n, (n < List.length l)%nat -> nth n l 0 < 0.
Proof.
  revert i. induction l as [| x l IH]; intros i H n Hn; [cbn in Hn; lia |].
  cbn [first_month_from] in H.
  destruct (Qle_bool 0 x) eqn:E; [discriminate |].
  apply Qle_bool_false in E.
  destruct n as [| n]; [exact E |].
  cbn [List.length] in Hn. apply (IH (i + 1)%Z H). lia.
Qed.

Lemma first_nonneg_month_scan (l : list Q) :
  match first_month_from 0 l with
  | Some k => first_nonneg_month l k
  | None => forall k, (1 <= k <= Z.of_nat (List.length l))%Z -> month_entry l k < 0
  end.
Proof.
  destruct (first_month_from 0 l) as [k |] eqn:E.
  - destruct (first_month_from_Some l 0 k E) as (Hk & Hnth & Hbefore).
    unfold first_nonneg_month, month_entry.
    split; [lia |]. split.
    + replace (k - 1)%Z with (k - 0 - 1)%Z by lia. exact Hnth.
    + intros j Hj. replace (j - 1)%Z with (j - 0 - 1)%Z by lia.
      apply Hbefore. lia.
  - intros k Hk. unfold month_entry.
    apply (first_month_from_None l 0 E). lia.
Qed.

Lemma fleet_cumulative_profit p m acq tax e :
  fleet_run p m acq tax e ->
  Projections.cumulative_profit (monthly_projections m) =
  accumulate 36 (gross_profit m) (- initial_investment m).
Proof.
  intro R. pose proof (fleet_projections _ _ _ _ _ R) as H.
  rewrite calculate_monthly_projections_eq in H. apply Ok_inj in H.
  rewrite <- H. reflexivity.
Qed.

(** With the investment fixed, a larger monthly profit reaches the first
    non-negative cumulative entry no later. *)
Lemma first_nonneg_month_monotone (i1 i2 g1 g2 : Q) (k1 k2 : Z) :
  i1 == i2 -> g1 < g2 ->
  first_nonneg_month (accumulate 36 g1 (- i1)) k1 ->
  first_nonneg_month (accumulate 36 g2 (- i2)) k2 ->
  (k2 <= k1)%Z.
Proof.
  intros Hi Hg (Hk1 & Hnonneg & _) (Hk2 & _ & Hbefore).
  rewrite accumulate_length in Hk1, Hk2.
  destruct (Z_le_gt_dec k2 k1) as [Hle | Hgt]; [exact Hle | exfalso].
  assert (Hneg : month_entry (accumulate 36 g2 (- i2)) k1 < 0)
    by (apply Hbefore; lia).
  rewrite month_entry_accumulate in Hneg, Hnonneg by lia.
  assert (Hpos : 0 < inject_Z k1).
  { change 0 with (inject_Z 0). rewrite <- Zlt_Qlt. lia. }
  assert (Hmul : inject_Z k1 * g1 <= inject_Z k1 * g2)
    by (apply Qmult_le_l; [exact Hpos | lra]).
  lra.
Qed.

(** ** Binary64 runs: the running sum, the scan, what a returned run
    satisfies *)

Lemma b64_bind_Ok {A B : Type} (c : B64.result A) (k : A -> B64.result B) (b : B) :
  B64.bind c k = B64.Ok b -> exists a, c = B64.Ok a /\ k a = B64.Ok b.
Proof.
  destruct c as [a | e]; simpl; intro H; [| discriminate].
  exists a. split; [reflexivity | exact H].
Qed.

Lemma b64_Ok_inj {A : Type} (a b : A) : B64.Ok a = B64.Ok b -> a = b.
Proof. intro H. injection H as ->. reflexivity. Qed.

Ltac b64_peel H :=
  repeat (cbv beta zeta in H;
          match type of H with
          | B64.bind _ _ = B64.Ok _ =>
              let v := fresh "v" in
              let Hv := fresh "Hrun" in
              apply b64_bind_Ok in H; destruct H as (v & Hv & H)
          end).

Lemma b64_accumulate_length (n : nat) (g : float) (c : B64.number) (l : list float) :
  B64.accumulate n g c = B64.Ok l -> List.length l = n.
Proof.
  revert c l. induction n as [| n IH]; intros c l H.
  - apply b64_Ok_inj in H. subst l. reflexivity.
  - cbn [B64.accumulate] in H. b64_peel H. apply b64_Ok_inj in H. subst l.
    cbn [List.length]. f_equal. eapply IH. eassumption.
Qed.









(** ** Concrete runs *)

Lemma sidebar_bundle_valid (p : Params) : sidebar_bundle p -> valid_bundle p.
Proof. intros []. constructor; try assumption; try lra; lia. Qed.

Lemma default_params_sidebar : sidebar_bundle default_params.
Proof. constructor; cbn; try lia; try lra. Qed.

(** The aggregator on the default bundle: turnover 4,160,000, net revenue
    124,800, acquisition 20,000 a month, total costs 145,000, no tax on a
    negative pre-tax profit, gross profit -20,200. *)
Example aggregator_default_run :
  exists m, calculate_aggregator_model default_params = Ok m /\
    total_turnover m == 4160000 /\
    net_revenue m == 124800 /\
    (exists acq, lookup acquisition_label (cost_breakdown m) = Some acq /\
                 acq == 20000) /\
    lookup tax_label (cost_breakdown m) = Some 0 /\
    total_costs m == 145000 /\
    gross_profit m == - 20200 /\
    break_even_rides m = Infinity /\
    total_3yr_profit m == - 727200.
Proof.
  eexists. split; [vm_compute; reflexivity |].
  cbn [total_turnover net_revenue cost_breakdown total_costs gross_profit
       break_even_rides total_3yr_profit].
  split; [reflexivity |]. split; [reflexivity |].
  split; [eexists; split; reflexivity |].
  repeat split.
Qed.

(** The fleet on the default bundle earns 26,880 a month against an
    investment of 1,800,000: no break-even month within 36 months, while
    the estimate of line 221 is month 68. *)
Example fleet_default_run :
  exists m, calculate_fleet_model default_params = Ok m /\
    initial_investment m == 1800000 /\
    gross_profit m == 26880 /\
    break_even_month m = None /\
    break_even_month_estimate (initial_investment m) (gross_profit m) = Ok (Some 68%Z) /\
    total_3yr_profit m == 36 * 26880 - 1800000.
Proof.
  eexists. split; [vm_compute; reflexivity |].
  cbn [initial_investment gross_profit break_even_month total_3yr_profit].
  repeat split.
Qed.

(** With a 15,000 salary and a 30% tax the fleet breaks even in month 21;
    the estimate says 22. *)
Example fleet_taxed_run :
  exists m, calculate_fleet_model taxed_params = Ok m /\
    gross_profit m == 88816 /\
    (exists tax, lookup tax_label (cost_breakdown m) = Some tax /\ tax == 38064) /\
    break_even_month m = Some 21%Z /\
    ev_payback_months m = Some 21%Z /\
    break_even_month_estimate (initial_investment m) (gross_profit m) = Ok (Some 22%Z).
Proof.
  eexists. split; [vm_compute; reflexivity |].
  cbn [gross_profit cost_breakdown break_even_month ev_payback_months
       initial_investment].
  split; [reflexivity |].
  split; [eexists; split; reflexivity |].
  repeat split.
Qed.

(** The fleet's [total_3yr_profit] already nets the investment: it is not
    the sum of the 36 monthly profits. *)
Example fleet_projection_sum_differs :
  exists m, calculate_fleet_model default_params = Ok m /\
    Qsum (Projections.gross_profit (monthly_projections m)) == 967680 /\
    total_3yr_profit m == - 832320.
Proof.
  eexists. split; [vm_compute; reflexivity |].
  cbn [monthly_projections total_3yr_profit Projections.gross_profit].
  split; reflexivity.
Qed.

(** Outside the valid range a division can fail: with a ticket size of 0
    and a negative cost the profit is positive and the contribution of a
    ride is 0. *)
Example aggregator_zero_ticket_raises :
  calculate_aggregator_model free_ride_params = Raise ZeroDivisionError /\
  calculate_fleet_model free_ride_params = Raise ZeroDivisionError.
Proof. split; vm_compute; reflexivity. Qed.

(** The same default runs in binary64. *)
Example b64_aggregator_default_run :
  B64.valid_bundleb B64.default_params = true /\
  exists m, B64.calculate_aggregator_model B64.default_params = B64.Ok m /\
    B64.total_turnover m = 4160000%float /\
    B64.total_costs m = 145000%float /\
    B64.gross_profit m = (-20200)%float /\
    B64.break_even_rides m = infinity /\
    B64.break_even_month m = None.
Proof.
  split; [reflexivity |].
  eexists. split; [vm_compute; reflexivity |]. repeat split.
Qed.

(** With no churn, a 78903 vehicle and a 1% tax the fleet's investment is
    25 times its exact profit; in binary64 the 25th running sum is just
    below 0, the returned month is 26 and so is the estimate of line
    221. *)
Example b64_fleet_ceiling_run :
  B64.valid_bundleb B64.ceiling_params = true /\
  exists m, B64.calculate_fleet_model B64.ceiling_params = B64.Ok m /\
    B64.gross_profit m = 31561.200000000012%float /\
    B64.initial_investment m = B64.Float 789030 /\
    B64.break_even_month_estimate 789030 (B64.gross_profit m) = B64.Ok (Some 26%Z) /\
    B64.break_even_month m = Some 26%Z /\
    (B64.month_entry
       (B64.Projections.cumulative_profit (B64.monthly_projections m)) 25
     <? 0)%float = true.
Proof.
  split; [reflexivity |].
  eexists. split; [vm_compute; reflexivity |]. repeat split.
Qed.

(** Where exact arithmetic gives the aggregator a profit of 0, binary64
    leaves a residue of 1.5e-11: the profit is positive and month 1 is
    reported. *)
Example b64_aggregator_thin_margin_run :
  B64.valid_bundleb B64.thin_margin_params = true /\
  exists m, B64.calculate_aggregator_model B64.thin_margin_params = B64.Ok m /\
    B64.gross_profit m = 1.4551915228366852e-11%float /\
    B64.break_even_month m = Some 1%Z.
Proof.
  split; [reflexivity |].
  eexists. split; [vm_compute; reflexivity |]. repeat split.
Qed.

(** A vehicle at 1e308 makes the investment infinite, and line 221 raises
    [OverflowError] on the infinite quotient. *)
Example b64_fleet_huge_ev_raises :
  B64.valid_bundleb B64.huge_ev_params = true /\
  B64.calculate_fleet_model B64.huge_ev_params = B64.Raise B64.OverflowError.
Proof. split; vm_compute; reflexivity. Qed.

(** ** The claims *)

(** C1 (as stated, refuted): on the sidebar's default bundle the
    aggregator's gross profit is -20200, and the calculator takes the
    branch of line 133: [break_even_month] is [None], not 1. *)
Lemma default_bundle_has_no_aggregator_month :
  valid_bundle default_params /\
  exists m, calculate_aggregator_model default_params = Ok m /\
            gross_profit m == - 20200 /\
            break_even_month m = None /\
            break_even_month m <> Some 1%Z.
Proof.
  split; [exact default_params_valid |].
  eexists. split; [vm_compute; reflexivity |].
  cbn [gross_profit break_even_month].
  split; [reflexivity |]. split; [reflexivity | discriminate].
Qed.

(** C1 (amended): for every valid bundle the aggregator calculator
    returns, and its [break_even_month] is 1 when gross profit is
    positive and [None] when gross profit is [<= 0]. *)
Theorem aggregator_break_even_month (p : Params) :
  valid_bundle p ->
  exists m, calculate_aggregator_model p = Ok m /\
            (0 < gross_profit m -> break_even_month m = Some 1%Z) /\
            (gross_profit m <= 0 -> break_even_month m = None).
Proof.
  intro V. destruct (aggregator_total p V) as [m Hm].
  exists m. split; [exact Hm |].
  destruct (aggregator_inv p m Hm) as (acq & tax & R).
  pose proof (agg_break_even _ _ _ _ R) as B.
  destruct (Qle_bool (gross_profit m) 0) eqn:E.
  - apply Qle_bool_iff in E. split; [intro; lra | intros _; apply B].
  - apply Qle_bool_false in E. split; [intros _; apply B | intro; lra].
Qed.

Lemma aggregator_break_even_month_witness :
  exists m, calculate_aggregator_model default_params = Ok m /\
            (0 < gross_profit m -> break_even_month m = Some 1%Z) /\
            (gross_profit m <= 0 -> break_even_month m = None).
Proof.
  apply (aggregator_break_even_month default_params).
  apply valid_bundleb_spec. reflexivity.
Defined.





(** C4: with the horizon at 36 the projection helper returns, for every
    input, seven 36-entry sequences; turnover, revenue, costs, profit and
    profit per driver repeat one value, the first cumulative entry is
    [monthly_profit - initial_investment], and every later cumulative
    entry is the one before it plus [monthly_profit]. *)
Theorem projections_constant_and_cumulative
    (monthly_profit monthly_costs monthly_revenue monthly_turnover : Q)
    (num_drivers : Z) (initial_investment : Q) :
  exists pr,
    calculate_monthly_projections monthly_profit monthly_costs monthly_revenue
      monthly_turnover num_drivers initial_investment 36 = Ok pr /\
    Projections.month pr = map Z.of_nat (seq 1 36) /\
    Projections.total_turnover pr = repeat monthly_turnover 36 /\
    Projections.net_revenue pr = repeat monthly_revenue 36 /\
    Projections.total_costs pr = repeat monthly_costs 36 /\
    Projections.gross_profit pr = repeat monthly_profit 36 /\
    Projections.profit_per_driver pr =
      repeat (monthly_profit / inject_Z (Z.max num_drivers 1)) 36 /\
    List.length (Projections.cumulative_profit pr) = 36%nat /\
    nth 0 (Projections.cumulative_profit pr) 0 == monthly_profit - initial_investment /\
    (forall i, (0 < i < 36)%nat ->
       nth i (Projections.cumulative_profit pr) 0 =
       nth (i - 1) (Projections.cumulative_profit pr) 0 + monthly_profit).
Proof.
  eexists. split; [apply calculate_monthly_projections_eq |].
  change (Z.to_nat 36) with 36%nat.
  cbn [Projections.month Projections.total_turnover Projections.net_revenue
       Projections.total_costs Projections.gross_profit
       Projections.profit_per_driver Projections.cumulative_profit].
  do 6 (split; [reflexivity |]).
  split; [apply accumulate_length |].
  split.
  - rewrite accumulate_nth_0 by lia. ring.
  - intros i Hi. destruct i as [| i]; [lia |].
    replace (S i - 1)%nat with i by lia.
    apply accumulate_nth_succ. lia.
Qed.










(** C9: for two valid bundles whose fleet runs have the same initial
    investment and gross profits [g1 < g2], if both runs report a
    break-even month then the month at [g2] is not later than the month
    at [g1]. *)
Theorem fleet_break_even_month_monotone (p1 p2 : Params)
    (m1 m2 : BusinessMetrics) (k1 k2 : Z) :
  valid_bundle p1 -> valid_bundle p2 ->
  calculate_fleet_model p1 = Ok m1 ->
  calculate_fleet_model p2 = Ok m2 ->
  initial_investment m1 == initial_investment m2 ->
  gross_profit m1 < gross_profit m2 ->
  break_even_month m1 = Some k1 ->
  break_even_month m2 = Some k2 ->
  (k2 <= k1)%Z.
Proof.
  intros _ _ H1 H2 Hinv Hg B1 B2.
  destruct (fleet_inv p1 m1 H1) as (acq1 & tax1 & e1 & R1).
  destruct (fleet_inv p2 m2 H2) as (acq2 & tax2 & e2 & R2).
  pose proof (first_nonneg_month_scan
                (Projections.cumulative_profit (monthly_projections m1))) as S1.
  pose proof (first_nonneg_month_scan
                (Projections.cumulative_profit (monthly_projections m2))) as S2.
  rewrite <- (fleet_break_even_month _ _ _ _ _ R1), B1 in S1.
  rewrite <- (fleet_break_even_month _ _ _ _ _ R2), B2 in S2.
  rewrite (fleet_cumulative_profit _ _ _ _ _ R1) in S1.
  rewrite (fleet_cumulative_profit _ _ _ _ _ R2) in S2.
  exact (first_nonneg_month_monotone _ _ _ _ _ _ Hinv Hg S1 S2).
Qed.

Lemma fleet_break_even_month_monotone_witness :
  exists m1 m2,
    calculate_fleet_model taxed_params = Ok m1 /\
    calculate_fleet_model lower_salary_params = Ok m2 /\
    initial_investment m1 == initial_investment m2 /\
    gross_profit m1 < gross_profit m2 /\
    break_even_month m1 = Some 21%Z /\
    break_even_month m2 = Some 15%Z /\
    (15 <= 21)%Z.
Proof.
  eexists. eexists.
  split; [vm_compute; reflexivity |].
  split; [vm_compute; reflexivity |].
  split; [reflexivity |]. split; [reflexivity |].
  split; [reflexivity |]. split; [reflexivity |].
  eapply (fleet_break_even_month_monotone taxed_params lower_salary_params).
  - apply valid_bundleb_spec. reflexivity.
  - apply valid_bundleb_spec. reflexivity.
  - vm_compute. reflexivity.
  - vm_compute. reflexivity.
  - reflexivity.
  - reflexivity.
  - reflexivity.
  - reflexivity.
Defined.




(** * Beyond the claims: the rest of the engine and its dashboard *)

(** ** More of a returned run *)



(** ** Costs *)










(** ** The break-even scan in closed form *)

Section Scan.
Variables g investment : Q.

Let cumulative : list Q := accumulate 36 g (- investment).




End Scan.

(** ** The fleet's break-even month *)












(** The idle bundle is the edge of X8: no profit, no investment, month 1. *)
Example fleet_idle_run :
  exists m, calculate_fleet_model idle_params = Ok m /\
    gross_profit m == 0 /\ initial_investment m == 0 /\
    break_even_rides m = Infinity /\ break_even_month m = Some 1%Z /\
    roi_percentage m = 0.
Proof.
  eexists. split; [vm_compute; reflexivity |].
  cbn [gross_profit initial_investment break_even_rides break_even_month
       roi_percentage].
  repeat split.
Qed.

(** ** No drivers *)






(** ** Return on investment *)



(** ** The aggregator's cumulative profit *)




(** ** The projection helper at any horizon *)

(** X13: for every input and every horizon [months], the projection
    helper returns without error seven sequences of the same length,
    [months] when it is positive and 0 otherwise (a horizon of 0 or less
    gives seven empty lists); the month column counts 1, 2, ... *)
Theorem projections_have_one_length
    (monthly_profit monthly_costs monthly_revenue monthly_turnover : Q)
    (num_drivers : Z) (initial_investment : Q) (months : Z) :
  exists pr,
    calculate_monthly_projections monthly_profit monthly_costs monthly_revenue
      monthly_turnover num_drivers initial_investment months = Ok pr /\
    let n := Z.to_nat months in
    List.length (Projections.month pr) = n /\
    List.length (Projections.total_turnover pr) = n /\
    List.length (Projections.net_revenue pr) = n /\
    List.length (Projections.total_costs pr) = n /\
    List.length (Projections.gross_profit pr) = n /\
    List.length (Projections.profit_per_driver pr) = n /\
    List.length (Projections.cumulative_profit pr) = n /\
    ((months <= 0)%Z -> n = 0%nat) /\
    (forall i, (i < n)%nat -> nth i (Projections.month pr) 0%Z = Z.of_nat (i + 1)).
Proof.
  eexists. split; [apply calculate_monthly_projections_eq |].
  cbv zeta.
  cbn [Projections.month Projections.total_turnover Projections.net_revenue
       Projections.total_costs Projections.gross_profit
       Projections.profit_per_driver Projections.cumulative_profit].
  rewrite length_map, length_seq, !repeat_length, accumulate_length.
  do 7 (split; [reflexivity |]).
  split; [lia |].
  intros i Hi.
  rewrite (nth_indep _ 0%Z (Z.of_nat 0)) by (rewrite length_map, length_seq; exact Hi).
  rewrite map_nth, seq_nth by exact Hi. f_equal. lia.
Qed.



(** ** When the calculators raise, in binary64 *)

Lemma b64_bind_Raise {A B : Type} (c : B64.result A) (k : A -> B64.result B)
    (e : B64.exception) :
  B64.bind c k = B64.Raise e ->
  c = B64.Raise e \/ exists a, c = B64.Ok a /\ k a = B64.Raise e.
Proof.
  destruct c as [a | e']; simpl; intro H.
  - right. exists a. split; [reflexivity | exact H].
  - left. injection H as ->. reflexivity.
Qed.

Lemma b64_float_of_int_raises (n : Z) (e : B64.exception) :
  B64.float_of_int n = B64.Raise e -> B64.arithmetic_error e.
Proof.
  unfold B64.float_of_int. cbv zeta.
  destruct (is_infinity _); intro H; [| discriminate].
  injection H as <-. right. reflexivity.
Qed.

Lemma b64_pydiv_raises (a b : float) (e : B64.exception) :
  B64.pydiv a b = B64.Raise e -> B64.arithmetic_error e.
Proof.
  unfold B64.pydiv. destruct (b =? 0)%float; intro H; [| discriminate].
  injection H as <-. left. reflexivity.
Qed.

Lemma b64_mul_int_raises (x : float) (n : Z) (e : B64.exception) :
  B64.mul_int x n = B64.Raise e -> B64.arithmetic_error e.
Proof.
  unfold B64.mul_int. intro H. apply b64_bind_Raise in H.
  destruct H as [H | (y & _ & H)]; [| discriminate].
  exact (b64_float_of_int_raises _ _ H).
Qed.

Lemma b64_div_int_raises (x : float) (n : Z) (e : B64.exception) :
  B64.div_int x n = B64.Raise e -> B64.arithmetic_error e.
Proof.
  unfold B64.div_int. intro H. apply b64_bind_Raise in H.
  destruct H as [H | (y & _ & H)]; [exact (b64_float_of_int_raises _ _ H) |].
  destruct (y =? 0)%float; [| discriminate].
  injection H as <-. left. reflexivity.
Qed.

Lemma b64_add_float_raises (a : B64.number) (x : float) (e : B64.exception) :
  B64.add_float a x = B64.Raise e -> B64.arithmetic_error e.
Proof.
  destruct a as [n | y]; cbn [B64.add_float]; intro H; [| discriminate].
  apply b64_bind_Raise in H.
  destruct H as [H | (y & _ & H)]; [| discriminate].
  exact (b64_float_of_int_raises _ _ H).
Qed.

Lemma b64_accumulate_raises (n : nat) (g : float) (c : B64.number) (e : B64.exception) :
  B64.accumulate n g c = B64.Raise e -> B64.arithmetic_error e.
Proof.
  revert c. induction n as [| n IH]; intros c H; [discriminate |].
  cbn [B64.accumulate] in H. apply b64_bind_Raise in H.
  destruct H as [H | (x & _ & H)]; [exact (b64_add_float_raises _ _ _ H) |].
  apply b64_bind_Raise in H.
  destruct H as [H | (rest & _ & H)]; [exact (IH _ H) | discriminate].
Qed.

(** Split a failed run at its binds; every failed call is one of the
    arithmetic primitives. *)
Ltac b64_fail H :=
  repeat (cbv beta zeta in H;
          match type of H with
          | B64.bind _ _ = B64.Raise _ =>
              apply b64_bind_Raise in H;
              destruct H as [H | (? & ? & H)]
          | (if ?c then _ else _) = B64.Raise _ => destruct c
          end);
  try discriminate;
  first [ exact (b64_pydiv_raises _ _ _ H)
        | exact (b64_mul_int_raises _ _ _ H)
        | exact (b64_div_int_raises _ _ _ H)
        | exact (b64_float_of_int_raises _ _ H)
        | exact (b64_accumulate_raises _ _ _ _ H)
        | idtac ].

Lemma b64_base_revenue_raises t r d u n (e : B64.exception) :
  B64.calculate_base_revenue t r d u n = B64.Raise e -> B64.arithmetic_error e.
Proof. unfold B64.calculate_base_revenue. intro H. b64_fail H. Qed.

Lemma b64_projections_raises g c r t n i months (e : B64.exception) :
  B64.calculate_monthly_projections g c r t n i months = B64.Raise e ->
  B64.arithmetic_error e.
Proof. unfold B64.calculate_monthly_projections. intro H. b64_fail H. Qed.

Lemma b64_aggregator_raises (p : B64.Params) (e : B64.exception) :
  B64.calculate_aggregator_model p = B64.Raise e -> B64.arithmetic_error e.
Proof.
  unfold B64.calculate_aggregator_model. intro H. b64_fail H.
  all: first [ exact (b64_base_revenue_raises _ _ _ _ _ _ H)
             | exact (b64_projections_raises _ _ _ _ _ _ _ _ H) ].
Qed.

Lemma arithmetic_is_fleet_error (e : B64.exception) : B64.arithmetic_error e -> B64.fleet_error e.
Proof. intros [-> | ->]; [left | right; left]; reflexivity. Qed.

Lemma b64_int_ceil_raises (x : float) (e : B64.exception) :
  B64.int_ceil x = B64.Raise e -> e = B64.OverflowError \/ e = B64.ValueError.
Proof.
  unfold B64.int_ceil. destruct (Prim2SF x); intro H; try discriminate;
    injection H as <-; [left | right]; reflexivity.
Qed.

Lemma b64_estimate_raises (i g : float) (e : B64.exception) :
  B64.break_even_month_estimate i g = B64.Raise e -> B64.fleet_error e.
Proof.
  unfold B64.break_even_month_estimate. intro H.
  destruct (g <=? 0)%float; [discriminate |].
  apply b64_bind_Raise in H. destruct H as [H | (q & _ & H)].
  - apply arithmetic_is_fleet_error. exact (b64_pydiv_raises _ _ _ H).
  - apply b64_bind_Raise in H. destruct H as [H | (c & _ & H)]; [| discriminate].
    right. exact (b64_int_ceil_raises _ _ H).
Qed.

Lemma b64_py_last_raises (l : list float) (e : B64.exception) :
  B64.py_last l = B64.Raise e -> l = [].
Proof.
  induction l as [| x l IH]; intro H; [reflexivity |].
  destruct l as [| y l]; [discriminate |].
  specialize (IH H). discriminate.
Qed.

Lemma b64_projections_cumulative g c r t n i months v :
  B64.calculate_monthly_projections g c r t n i months = B64.Ok v ->
  List.length (B64.Projections.cumulative_profit v) = Z.to_nat months.
Proof.
  unfold B64.calculate_monthly_projections. intro H. b64_peel H.
  apply b64_Ok_inj in H. subst v. cbn [B64.Projections.cumulative_profit].
  eapply b64_accumulate_length. eassumption.
Qed.

Lemma b64_fleet_raises (p : B64.Params) (e : B64.exception) :
  B64.calculate_fleet_model p = B64.Raise e -> B64.fleet_error e.
Proof.
  unfold B64.calculate_fleet_model. intro H. b64_fail H.
  all: try (apply arithmetic_is_fleet_error;
            first [ assumption
                  | exact (b64_base_revenue_raises _ _ _ _ _ _ H)
                  | exact (b64_projections_raises _ _ _ _ _ _ _ _ H)
                  | exact (b64_pydiv_raises _ _ _ H)
                  | exact (b64_mul_int_raises _ _ _ H)
                  | exact (b64_div_int_raises _ _ _ H) ]).
  all: try exact (b64_estimate_raises _ _ _ H).
  all: match goal with
       | Hp : B64.calculate_monthly_projections _ _ _ _ _ _ _ = B64.Ok ?v,
         Hl : B64.py_last _ = B64.Raise _ |- _ =>
           apply b64_projections_cumulative in Hp;
           apply b64_py_last_raises in Hl; rewrite Hl in Hp; discriminate
       end.
Qed.

(** X15: in binary64, whatever the bundle, the aggregator calculator can
    raise only [ZeroDivisionError] or [OverflowError]; the fleet
    calculator can raise those and the [ValueError] of [int()] of a NaN
    at line 221; neither raises [IndexError], the cumulative list having
    36 entries.  All three are raised: [ZeroDivisionError] at a ticket
    size of 0, [OverflowError] on the valid bundle with a vehicle at
    1e308, [ValueError] on the valid bundle with ticket and vehicle at
    1e308. *)
Theorem calculators_raise_in_binary64 :
  (forall p e, B64.calculate_aggregator_model p = B64.Raise e ->
     e = B64.ZeroDivisionError \/ e = B64.OverflowError) /\
  (forall p e, B64.calculate_fleet_model p = B64.Raise e ->
     e = B64.ZeroDivisionError \/ e = B64.OverflowError \/ e = B64.ValueError) /\
  B64.calculate_aggregator_model B64.free_ride_params =
    B64.Raise B64.ZeroDivisionError /\
  (B64.valid_bundleb B64.huge_ev_params = true /\
   B64.calculate_fleet_model B64.huge_ev_params = B64.Raise B64.OverflowError) /\
  (B64.valid_bundleb B64.huge_ticket_and_ev_params = true /\
   B64.calculate_fleet_model B64.huge_ticket_and_ev_params =
     B64.Raise B64.ValueError).
Proof.
  split; [exact b64_aggregator_raises |].
  split; [exact b64_fleet_raises |].
  repeat split; vm_compute; reflexivity.
Qed.

(** ** The dashboard *)








(** X18: [get_profit_color] returns one of its two colours; it is green
    exactly when the value is [>= 0] and the cumulative value, if one is
    given, is [>= 0] too.  A cumulative value of 0 is a given value, not
    a missing one, and the card colour of lines 334 and 346 is the colour
    of the three-year profit with no cumulative value. *)
Theorem get_profit_color_green (value : Q) (cumulative_value : option Q) :
  (get_profit_color value cumulative_value = green \/
   get_profit_color value cumulative_value = red) /\
  (get_profit_color value cumulative_value = green <->
   0 <= value /\ (forall c, cumulative_value = Some c -> 0 <= c)) /\
  get_profit_color value (Some 0) = get_profit_color value None /\
  (forall m, profit_color m = get_profit_color (total_3yr_profit m) None).
Proof.
  split; [| split; [| split; [| reflexivity]]].
  - unfold get_profit_color. destruct cumulative_value as [c |];
      [destruct (Qle_bool 0 value && Qle_bool 0 c) | destruct (Qle_bool 0 value)];
      auto.
  - unfold get_profit_color. destruct cumulative_value as [c |].
    + destruct (Qle_bool 0 value) eqn:Ev; destruct (Qle_bool 0 c) eqn:Ec;
        cbn [andb]; try apply Qle_bool_iff in Ev; try apply Qle_bool_iff in Ec;
        try apply Qle_bool_false in Ev; try apply Qle_bool_false in Ec.
      * split; [intros _ | reflexivity].
        split; [exact Ev | intros c' H; injection H as <-; exact Ec].
      * split; [discriminate |]. intros [_ H]. specialize (H c eq_refl). lra.
      * split; [discriminate |]. intros [H _]. lra.
      * split; [discriminate |]. intros [H _]. lra.
    + destruct (Qle_bool 0 value) eqn:Ev;
        [apply Qle_bool_iff in Ev | apply Qle_bool_false in Ev].
      * split; [intros _ | reflexivity]. split; [exact Ev | discriminate].
      * split; [discriminate |]. intros [H _]. lra.
  - unfold get_profit_color. change (Qle_bool 0 0) with true.
    rewrite andb_true_r. reflexivity.
Qed.
